(** * OpenPNM: RxMER value decoding (package/rx_mer_class.py)

    A shallow embedding of the three classes of [rx_mer_class.py]:
    [RxMerDataValue] (one sample), [RxMerData] (the sequence) and [RX_MER]
    (the processor), and the properties of the decoding they implement.

    Python objects are modelled as follows.
    - [int] is [Z] (unbounded), [bool] is a subclass of [int];
    - [float] is IEEE 754 binary64, i.e. Rocq's primitive [float];
    - an exception is a value of [exn] carried by [Raise];
    - [bytes] is [list Byte.byte];
    - [str] is [string];
    - a method that assigns to [self] returns the object after the call, the
      methods that only read [self] are functions of it;
    - the calls to [Log.debug] ([package.log], a collaborator outside these
      sources) write to the process-wide log and touch no object: they are
      left out. *)

From Stdlib Require Import ZArith List String Ascii Bool Lia QArith.
From Stdlib Require Import Floats DecimalString.
From Stdlib.Strings Require Import Byte.
Import ListNotations.

Local Open Scope string_scope.
Local Open Scope Z_scope.

Set Warnings "-register-all".

(** ** Python values, exceptions *)

Inductive exn : Type :=
| ValueError (msg : string)
| AttributeError (msg : string)
| OverflowError (msg : string).

Inductive result (A : Type) : Type :=
| Ok (a : A)
| Raise (e : exn).

Arguments Ok {A} a.
Arguments Raise {A} e.

Definition bind {A B : Type} (m : result A) (k : A -> result B) : result B :=
  match m with
  | Ok a => k a
  | Raise e => Raise e
  end.

Notation "x <- m ;; k" := (bind m (fun x => k))
  (at level 61, m at next level, right associativity).

(** [[f(x) for x in xs]]: the first exception aborts the comprehension. *)
Fixpoint list_comprehension {A B : Type} (f : A -> result B) (xs : list A)
  : result (list B) :=
  match xs with
  | [] => Ok []
  | x :: rest =>
      y <- f x ;;
      ys <- list_comprehension f rest ;;
      Ok (y :: ys)
  end.

(** What a caller can pass to [RxMerDataValue(...)]. *)
Inductive pyval : Type :=
| PyInt (z : Z)
| PyBool (b : bool)
| PyFloat (f : float)
| PyStr (s : string)
| PyNone.

(** A Python number as stored in [self.value]: the constructor returns either
    the [int] constant [NO_MEASUREMENT] or a [float]. *)
Inductive pynum : Type :=
| NInt (z : Z)
| NFloat (f : float).

(** [isinstance(value, int)]: [bool] is a subclass of [int], [True] is 1. *)
Definition isinstance_int (v : pyval) : option Z :=
  match v with
  | PyInt z => Some z
  | PyBool b => Some (if b then 1 else 0)
  | _ => None
  end.

(** [isinstance(value, float)]. *)
Definition isinstance_float (v : pyval) : option float :=
  match v with
  | PyFloat f => Some f
  | _ => None
  end.

(** ** Numbers *)

(** The exact rational value of a finite float; [None] for nan and the
    infinities. *)
Definition float_to_Q (f : float) : option Q :=
  match Prim2SF f with
  | S754_zero _ => Some 0%Q
  | S754_finite s m e =>
      let a := if s then Z.neg m else Z.pos m in
      Some (if 0 <=? e then inject_Z (a * 2 ^ e)
            else Qmake a (Z.to_pos (2 ^ (- e))))
  | S754_infinity _ => None
  | S754_nan => None
  end.

(** [int(f)]: truncation toward zero; Python raises on nan and infinities. *)
Definition py_int (f : float) : result Z :=
  match Prim2SF f with
  | S754_zero _ => Ok 0
  | S754_finite s m e =>
      let a := if 0 <=? e then Z.pos m * 2 ^ e else Z.pos m / 2 ^ (- e) in
      Ok (if s then - a else a)
  | S754_infinity _ => Raise (OverflowError "cannot convert float infinity to integer")
  | S754_nan => Raise (ValueError "cannot convert float NaN to integer")
  end.

(** The conversion of an [int] operand to [float] in [int / float].  The
    conversion rounds to nearest-even and is exact up to [2^53]; here it is
    defined on [0 <= z < 2^63], which covers every value that reaches the
    division (the operand has been clamped to [0, 254]). *)
Definition float_of_int (z : Z) : float := of_uint63 (Uint63.of_Z z).

(** [i / f] for an [int] and a [float]: true division in binary64. *)
Definition int_truediv (i : Z) (f : float) : float :=
  PrimFloat.div (float_of_int i) f.

(** The builtins [max(a, b)] and [min(a, b)]: the first argument is kept
    unless the second compares strictly greater (resp. smaller). *)
Definition max_int (a b : Z) : Z := if a <? b then b else a.
Definition min_int (a b : Z) : Z := if b <? a then b else a.
Definition max_float (a b : float) : float := if PrimFloat.ltb a b then b else a.
Definition min_float (a b : float) : float := if PrimFloat.ltb b a then b else a.

(** [a == b] on numbers.  Python compares an [int] with a [float] by exact
    value, without rounding the [int]. *)
Definition num_eq (a b : pynum) : bool :=
  match a, b with
  | NInt x, NInt y => x =? y
  | NFloat x, NFloat y => PrimFloat.eqb x y
  | NInt x, NFloat y | NFloat y, NInt x =>
      match float_to_Q y with
      | Some q => Qeq_bool q (inject_Z x)
      | None => false
      end
  end.

Definition num_ne (a b : pynum) : bool := negb (num_eq a b).

(** The range of a reported decibel value: [0.0 <= x <= 63.5]. *)
Definition in_dB_range (x : pynum) : bool :=
  match x with
  | NInt z => (0 <=? z) && (z <=? 63)
  | NFloat f => PrimFloat.leb 0%float f && PrimFloat.leb f 63.5%float
  end.

(** ** The [json] module, as far as [json.dumps] is used here *)

(** [float.__repr__], the shortest decimal string that reads back as the same
    binary64 value.  It belongs to the interpreter, not to this package; the
    development is parametric in it. *)
Class FloatRepr : Type := float_repr : float -> string.

Inductive json : Type :=
| JNum (n : pynum)
| JBool (b : bool)
| JStr (s : string)
| JList (items : list json)
| JDict (items : list (string * json)).

(** The double quote (code 34) and the backslash (code 92). *)
Definition dquote : ascii := ascii_of_N 34.
Definition backslash : ascii := ascii_of_N 92.

Definition hex_digit (n : N) : ascii :=
  ascii_of_N (if (n <? 10)%N then 48 + n else 87 + n)%N.

(** [ESCAPE_DCT] and the [\uXXXX] fallback of [py_encode_basestring_ascii]:
    the characters from space to tilde other than the quote and the backslash
    are kept. *)
Definition escape_char (c : ascii) : string :=
  let n := N_of_ascii c in
  if (n =? 92)%N then String backslash (String backslash EmptyString)
  else if (n =? 34)%N then String backslash (String dquote EmptyString)
  else if (n =? 8)%N then String backslash "b"
  else if (n =? 12)%N then String backslash "f"
  else if (n =? 10)%N then String backslash "n"
  else if (n =? 13)%N then String backslash "r"
  else if (n =? 9)%N then String backslash "t"
  else if ((32 <=? n) && (n <=? 126))%N then String c EmptyString
  else String backslash
         (String "u" (String "0" (String "0"
            (String (hex_digit (n / 16))
               (String (hex_digit (n mod 16)) EmptyString))))).

Fixpoint escape (s : string) : string :=
  match s with
  | EmptyString => EmptyString
  | String c rest => escape_char c ++ escape rest
  end.

Definition encode_basestring_ascii (s : string) : string :=
  String dquote (escape s ++ String dquote EmptyString).

(** [int.__repr__]. *)
Definition int_repr (z : Z) : string := NilZero.string_of_int (Z.to_int z).

(** [floatstr] of [json.encoder] with [allow_nan=True], the default. *)
Definition floatstr `{FloatRepr} (o : float) : string :=
  if negb (PrimFloat.eqb o o) then "NaN"
  else if PrimFloat.eqb o infinity then "Infinity"
  else if PrimFloat.eqb o neg_infinity then "-Infinity"
  else float_repr o.

(** [json.dumps(obj)] with the default separators [", "] and [": "]; a dict
    is written in insertion order. *)
Fixpoint dumps `{FloatRepr} (j : json) : string :=
  match j with
  | JNum (NInt z) => int_repr z
  | JNum (NFloat f) => floatstr f
  | JBool b => if b then "true" else "false"
  | JStr s => encode_basestring_ascii s
  | JList items => "[" ++ String.concat ", " (map dumps items) ++ "]"
  | JDict items =>
      "{" ++ String.concat ", "
               (map (fun kv => encode_basestring_ascii (fst kv) ++ ": " ++ dumps (snd kv))
                    items) ++ "}"
  end.

Definition hex_value (c : ascii) : option N :=
  let n := N_of_ascii c in
  if ((48 <=? n) && (n <=? 57))%N then Some (n - 48)%N
  else if ((97 <=? n) && (n <=? 102))%N then Some (n - 87)%N
  else None.

(** The scanner of a JSON string token, after its opening quote
    ([py_scanstring]), for a token that ends the text and for the escapes
    that [escape] emits. *)
Fixpoint scanstring (s : string) : option string :=
  match s with
  | EmptyString => None
  | String c rest =>
      if (N_of_ascii c =? 34)%N then
        match rest with
        | EmptyString => Some EmptyString
        | String _ _ => None
        end
      else if (N_of_ascii c =? 92)%N then
        match rest with
        | String e rest' =>
            let lit (x : N) := option_map (String (ascii_of_N x)) (scanstring rest') in
            if (N_of_ascii e =? 92)%N then lit 92%N
            else if (N_of_ascii e =? 34)%N then lit 34%N
            else if (N_of_ascii e =? 98)%N then lit 8%N
            else if (N_of_ascii e =? 102)%N then lit 12%N
            else if (N_of_ascii e =? 110)%N then lit 10%N
            else if (N_of_ascii e =? 114)%N then lit 13%N
            else if (N_of_ascii e =? 116)%N then lit 9%N
            else if (N_of_ascii e =? 117)%N then
              match rest' with
              | String _ (String _ (String h (String l rest''))) =>
                  match hex_value h, hex_value l with
                  | Some a, Some b =>
                      option_map (String (ascii_of_N (16 * a + b))) (scanstring rest'')
                  | _, _ => None
                  end
              | _ => None
              end
            else None
        | EmptyString => None
        end
      else option_map (String c) (scanstring rest)
  end.

(** [json.loads] on a text that is one string token. *)
Definition loads_string (s : string) : option string :=
  match s with
  | String q body => if (N_of_ascii q =? 34)%N then scanstring body else None
  | EmptyString => None
  end.

(** ** class RxMerDataValue *)

Module RxMerDataValue.

Definition NO_MEASUREMENT : Z := 255.            (* 0xFF *)
Definition MAX_REPORTED_VALUE : float := 63.5%float.

Record t : Type := mk { value : pynum }.

Definition _validate_value (value : pyval) : result pynum :=
  match isinstance_int value with
  | Some v =>
      if v =? NO_MEASUREMENT then Ok (NInt NO_MEASUREMENT)
      else
        hi <- py_int (PrimFloat.mul MAX_REPORTED_VALUE 4%float) ;;
        let v := min_int (max_int v 0) hi in
        Ok (NFloat (int_truediv v 4%float))
  | None =>
      match isinstance_float value with
      | Some f =>
          let f := min_float (max_float f 0%float) MAX_REPORTED_VALUE in
          Ok (NFloat f)
      | None => Raise (ValueError "Invalid RxMER value")
      end
  end.

Definition __init__ (value : pyval) : result t :=
  v <- _validate_value value ;;
  Ok (mk v).

Definition isMaxValue (self : t) : bool :=
  num_eq (value self) (NFloat MAX_REPORTED_VALUE).

Definition getRxMER (self : t) : pynum := value self.

Definition isMeasurement (self : t) : bool :=
  num_ne (value self) (NInt NO_MEASUREMENT).

(** The dict handed to [json.dumps]. *)
Definition toJson_dict (self : t) : json :=
  JDict [ ("value"%string, JNum (value self));
          ("isMaxValue"%string, JBool (isMaxValue self));
          ("isMeasurement"%string, JBool (isMeasurement self)) ].

Definition toJson `{FloatRepr} (self : t) : string := dumps (toJson_dict self).

End RxMerDataValue.

(** ** class RxMerData *)

Module RxMerData.

Record t : Type := mk { values : list RxMerDataValue.t }.

Definition __init__ (values : list RxMerDataValue.t) : t := mk values.

Definition size (self : t) : Z := Z.of_nat (List.length (values self)).

(** The dict handed to [json.dumps]: each entry is the [str] returned by the
    element's [toJson]. *)
Definition toJson_dict `{FloatRepr} (self : t) : json :=
  JDict [ ("values"%string,
           JList (map (fun value => JStr (RxMerDataValue.toJson value)) (values self))) ].

Definition toJson `{FloatRepr} (self : t) : string := dumps (toJson_dict self).

End RxMerData.

(** ** class RX_MER *)

Module RX_MER.

(** Modelled from the spec: [package.pnmHeader_class.PnmHeader] is not part of
    the sources at hand.  Of the header only [getPnmData()] is used: it
    returns a [BytesIO] whose [getvalue()] is the raw payload, or [None]. *)
Record PnmHeader : Type := mkHeader { getPnmData : option (list byte) }.

Record t : Type := mk { pnm_header : PnmHeader; rxmer_data : option RxMerData.t }.

Definition __init__ (pnm_header : PnmHeader) : t := mk pnm_header None.

(** [list(pnm_data.getvalue())]: the bytes as integers in [0, 255]. *)
Definition list_of_bytes (data : list byte) : list Z :=
  map (fun b => Z.of_N (Byte.to_N b)) data.

Definition _parse_rxmer_data (self : t) : result RxMerData.t :=
  match getPnmData (pnm_header self) with
  | Some pnm_data =>
      let pnm_data_list := list_of_bytes pnm_data in
      values <- list_comprehension
                  (fun value => RxMerDataValue.__init__ (PyInt value)) pnm_data_list ;;
      Ok (RxMerData.__init__ values)
  | None => Ok (RxMerData.__init__ [])
  end.

(** [self.rxmer_data = self._parse_rxmer_data()]; nothing is caught. *)
Definition process_data (self : t) : result t :=
  rd <- _parse_rxmer_data self ;;
  Ok (mk (pnm_header self) (Some rd)).

(** [self.rxmer_data.toJson()]: attribute lookup on [None] raises. *)
Definition toJson `{FloatRepr} (self : t) : result string :=
  match rxmer_data self with
  | Some rd => Ok (RxMerData.toJson rd)
  | None => Raise (AttributeError "'NoneType' object has no attribute 'toJson'")
  end.

Definition run (self : t) : result t := process_data self.

End RX_MER.

(** ** The life of a processor *)

Section Lifecycle.
Context `{FloatRepr}.

(** What can happen to an [RX_MER] object: one of its methods returns
    normally, or the header it refers to (and does not own) gets another
    payload. *)
Inductive step : RX_MER.t -> RX_MER.t -> Prop :=
| step_process_data (s s' : RX_MER.t) :
    RX_MER.process_data s = Ok s' -> step s s'
| step_run (s s' : RX_MER.t) :
    RX_MER.run s = Ok s' -> step s s'
| step_toJson (s : RX_MER.t) (text : string) :
    RX_MER.toJson s = Ok text -> step s s
| step_header (s : RX_MER.t) (payload : option (list byte)) :
    step s (RX_MER.mk (RX_MER.mkHeader payload) (RX_MER.rxmer_data s)).

(** The states reached once [process_data()] or [run()] has returned. *)
Inductive processed : RX_MER.t -> Prop :=
| processed_first (s s' : RX_MER.t) :
    RX_MER.process_data s = Ok s' \/ RX_MER.run s = Ok s' -> processed s'
| processed_later (s s' : RX_MER.t) :
    processed s -> step s s' -> processed s'.

End Lifecycle.

(** ** A printer for the examples *)

(** The digits of [r / d] after the point, for [0 <= r < d]. *)
Fixpoint frac_digits (fuel : nat) (r d : Z) : string :=
  match fuel with
  | O => ""
  | S n =>
      if r =? 0 then ""
      else int_repr (10 * r / d) ++ frac_digits n (10 * r mod d) d
  end.

(** The exact decimal expansion of a float.  On the quarter-dB values
    [k / 4.0], [0 <= k <= 254], which is where the examples use it, this is
    what [float.__repr__] prints ([0.0], [0.25], [63.5], ...). *)
Definition exact_decimal : FloatRepr :=
  fun f =>
    match Prim2SF f with
    | S754_zero s => if s then "-0.0" else "0.0"
    | S754_finite s m e =>
        let sign := if s then "-" else "" in
        if 0 <=? e then sign ++ int_repr (Z.pos m * 2 ^ e) ++ ".0"
        else
          let d := 2 ^ (- e) in
          let r := Z.pos m mod d in
          sign ++ int_repr (Z.pos m / d) ++ "."
               ++ (if r =? 0 then "0" else frac_digits (Z.to_nat (- e)) r d)
    | S754_infinity s => if s then "-inf" else "inf"
    | S754_nan => "nan"
    end.

(** [s] between double quotes, with nothing escaped. *)
Definition quoted (s : string) : string := String dquote (s ++ String dquote "").

(** An error message echoes the offending input when the input's text occurs
    in it. *)
Definition exn_message (e : exn) : string :=
  match e with
  | ValueError msg | AttributeError msg | OverflowError msg => msg
  end.

Definition echoes (e : exn) (input_text : string) : bool :=
  match index 0 input_text (exn_message e) with
  | Some _ => true
  | None => false
  end.

(** The raw-byte path in the words of the specification: 255 is stored as
    it is; any other byte is clamped to [0, 254] and divided by four. *)
Definition spec_raw_byte_path (z : Z) : pynum :=
  if z =? 255 then NInt 255
  else NFloat (int_truediv (Z.min (Z.max z 0) 254) 4%float).

(** A stored number handed back to the constructor, as in
    [RxMerDataValue(other.getRxMER())]. *)
Definition pyval_of_num (n : pynum) : pyval :=
  match n with
  | NInt z => PyInt z
  | NFloat f => PyFloat f
  end.

(** * Properties *)

(** ** Comparisons of a float with the two bounds *)

Lemma Prim2SF_max :
  Prim2SF RxMerDataValue.MAX_REPORTED_VALUE = S754_finite false 8936830510563328 (-47).
Proof. vm_compute. reflexivity. Qed.

Lemma Prim2SF_zero : Prim2SF 0%float = S754_zero false.
Proof. vm_compute. reflexivity. Qed.

(** A float above 63.5 is not below 0.0. *)
Lemma above_max_not_below_zero (f : float) :
  PrimFloat.ltb RxMerDataValue.MAX_REPORTED_VALUE f = true ->
  PrimFloat.ltb f 0%float = false.
Proof.
  rewrite !ltb_spec, Prim2SF_max, Prim2SF_zero.
  unfold SFltb, SFcompare.
  destruct (Prim2SF f) as [s | s | | s m e]; try destruct s;
    intros E; try reflexivity; discriminate E.
Qed.

(** 63.5 has one representation: IEEE equality with it is equality. *)
Lemma eqb_max_eq (f : float) :
  PrimFloat.eqb f RxMerDataValue.MAX_REPORTED_VALUE = true ->
  f = RxMerDataValue.MAX_REPORTED_VALUE.
Proof.
  rewrite eqb_spec, Prim2SF_max. intros E.
  apply Prim2SF_inj. rewrite Prim2SF_max.
  unfold SFeqb, SFcompare in E.
  destruct (Prim2SF f) as [s | s | | s m e]; try destruct s; try discriminate E.
  destruct (e ?= -47) eqn:Ce; try discriminate E.
  destruct (PosDef.Pos.compare_cont Eq m 8936830510563328) eqn:Cm;
    try discriminate E.
  apply Z.compare_eq in Ce. apply Pos.compare_eq in Cm. now subst.
Qed.

(** ** The constructor, path by path *)

(** [int(MAX_REPORTED_VALUE * 4)] is 254. *)
Lemma raw_upper_bound :
  py_int (PrimFloat.mul RxMerDataValue.MAX_REPORTED_VALUE 4%float) = Ok 254.
Proof. vm_compute. reflexivity. Qed.

Lemma validate_raw (v : Z) :
  v <> RxMerDataValue.NO_MEASUREMENT ->
  RxMerDataValue._validate_value (PyInt v)
  = Ok (NFloat (int_truediv (min_int (max_int v 0) 254) 4%float)).
Proof.
  intros Hv. unfold RxMerDataValue._validate_value. cbn [isinstance_int].
  apply Z.eqb_neq in Hv. rewrite Hv, raw_upper_bound. reflexivity.
Qed.

Lemma validate_sentinel :
  RxMerDataValue._validate_value (PyInt 255) = Ok (NInt 255).
Proof. reflexivity. Qed.

Lemma validate_float (f : float) :
  RxMerDataValue._validate_value (PyFloat f)
  = Ok (NFloat (min_float (max_float f 0%float) RxMerDataValue.MAX_REPORTED_VALUE)).
Proof. reflexivity. Qed.

Lemma clamp_in_range (v : Z) : 0 <= v <= 254 -> min_int (max_int v 0) 254 = v.
Proof.
  intros Hv. unfold min_int, max_int.
  destruct (Z.ltb_spec v 0); [lia|].
  destruct (Z.ltb_spec 254 v); lia.
Qed.

Lemma clamp_above (v : Z) : 254 < v -> min_int (max_int v 0) 254 = 254.
Proof.
  intros Hv. unfold min_int, max_int.
  destruct (Z.ltb_spec v 0); [lia|].
  destruct (Z.ltb_spec 254 v); lia.
Qed.

Lemma clamp_below (v : Z) : v < 0 -> min_int (max_int v 0) 254 = 0.
Proof.
  intros Hv. unfold min_int, max_int.
  destruct (Z.ltb_spec v 0); [reflexivity | lia].
Qed.

(** The 255 quotients [k / 4.0], checked one by one: each is exactly the
    rational [k/4] and lies between 0.0 and 63.5. *)
Lemma quarter_lattice_checked :
  forallb
    (fun k =>
       match float_to_Q (int_truediv k 4%float) with
       | Some q => Qeq_bool q (k # 4)
       | None => false
       end
       && in_dB_range (NFloat (int_truediv k 4%float)))
    (map Z.of_nat (seq 0 255)) = true.
Proof. vm_compute. reflexivity. Qed.

Lemma in_raw_range (v : Z) : 0 <= v <= 254 -> In v (map Z.of_nat (seq 0 255)).
Proof.
  intros Hv. replace v with (Z.of_nat (Z.to_nat v)) by lia.
  apply in_map, in_seq. lia.
Qed.

(** C1. For every integer [v] in [0, 254] the constructor succeeds on the
    raw-byte path and stores [v / 4.0]: [getRxMER()] returns that float, its
    exact value is the rational [v/4], and it lies in [0.0, 63.5]. *)
Theorem C1_raw_byte_is_quarter_dB (v : Z) (Hv : 0 <= v <= 254) :
  exists obj,
    RxMerDataValue.__init__ (PyInt v) = Ok obj
    /\ RxMerDataValue.getRxMER obj = NFloat (int_truediv v 4%float)
    /\ (exists q, float_to_Q (int_truediv v 4%float) = Some q /\ (q == v # 4)%Q)
    /\ in_dB_range (RxMerDataValue.getRxMER obj) = true.
Proof.
  exists (RxMerDataValue.mk (NFloat (int_truediv v 4%float))).
  pose proof quarter_lattice_checked as Hall.
  rewrite forallb_forall in Hall.
  specialize (Hall v (in_raw_range v Hv)).
  apply andb_prop in Hall. destruct Hall as [Hq Hr].
  split.
  - unfold RxMerDataValue.__init__.
    rewrite validate_raw by (unfold RxMerDataValue.NO_MEASUREMENT; lia).
    rewrite clamp_in_range by exact Hv. reflexivity.
  - split; [reflexivity|]. split; [|exact Hr].
    destruct (float_to_Q (int_truediv v 4%float)) as [q|]; [|discriminate Hq].
    exists q. split; [reflexivity|]. apply Qeq_bool_iff. exact Hq.
Qed.

Lemma C1_raw_byte_is_quarter_dB_witness :
  0 <= 100 <= 254 /\
  exists obj,
    RxMerDataValue.__init__ (PyInt 100) = Ok obj
    /\ RxMerDataValue.getRxMER obj = NFloat (int_truediv 100 4%float)
    /\ (exists q, float_to_Q (int_truediv 100 4%float) = Some q /\ (q == 100 # 4)%Q)
    /\ in_dB_range (RxMerDataValue.getRxMER obj) = true.
Proof.
  split; [lia|]. apply (C1_raw_byte_is_quarter_dB 100). lia.
Defined.

(** C2. Constructing from the integer 255 stores the sentinel itself:
    [getRxMER()] returns 255, [isMeasurement()] is false and [isMaxValue()]
    is false. *)
Theorem C2_sentinel_is_kept :
  exists obj,
    RxMerDataValue.__init__ (PyInt 255) = Ok obj
    /\ RxMerDataValue.getRxMER obj = NInt 255
    /\ RxMerDataValue.isMeasurement obj = false
    /\ RxMerDataValue.isMaxValue obj = false.
Proof.
  exists (RxMerDataValue.mk (NInt 255)).
  repeat split; vm_compute; reflexivity.
Qed.

Lemma float_below_zero (f : float) :
  PrimFloat.ltb f 0%float = true ->
  min_float (max_float f 0%float) RxMerDataValue.MAX_REPORTED_VALUE = 0%float.
Proof.
  intros Hf. unfold max_float. rewrite Hf. reflexivity.
Qed.

Lemma float_above_max (f : float) :
  PrimFloat.ltb RxMerDataValue.MAX_REPORTED_VALUE f = true ->
  min_float (max_float f 0%float) RxMerDataValue.MAX_REPORTED_VALUE
  = RxMerDataValue.MAX_REPORTED_VALUE.
Proof.
  intros Hf. unfold max_float, min_float.
  rewrite (above_max_not_below_zero f Hf), Hf. reflexivity.
Qed.

(** On spec floats other than nan, [not (y < x)] gives [x <= y]. *)
Lemma SFleb_of_not_SFltb (x y : spec_float) :
  SFeqb x x = true -> SFeqb y y = true ->
  SFltb y x = false -> SFleb x y = true.
Proof.
  unfold SFeqb, SFltb, SFleb, SFcompare.
  destruct x as [sx | sx | | sx mx ex], y as [sy | sy | | sy my ey];
    try destruct sx; try destruct sy; intros Hx Hy Hlt;
    try reflexivity; try discriminate.
  - clear Hx Hy. rewrite (Z.compare_antisym ex ey) in Hlt.
    destruct (ex ?= ey); cbn [CompOpp] in Hlt; try reflexivity;
      try discriminate Hlt.
    pose proof (Pos.compare_antisym mx my) as Ha.
    unfold Pos.compare in Ha. rewrite Ha in Hlt.
    destruct (PosDef.Pos.compare_cont Eq mx my);
      cbn [CompOpp] in *; try reflexivity; discriminate Hlt.
  - clear Hx Hy. rewrite (Z.compare_antisym ex ey) in Hlt.
    destruct (ex ?= ey); cbn [CompOpp] in Hlt; try reflexivity;
      try discriminate Hlt.
    pose proof (Pos.compare_antisym mx my) as Ha.
    unfold Pos.compare in Ha. rewrite Ha in Hlt.
    destruct (PosDef.Pos.compare_cont Eq mx my);
      cbn [CompOpp] in *; try reflexivity; discriminate Hlt.
Qed.

Lemma zero_not_nan : PrimFloat.eqb 0%float 0%float = true.
Proof. vm_compute. reflexivity. Qed.

Lemma max_not_nan :
  PrimFloat.eqb RxMerDataValue.MAX_REPORTED_VALUE RxMerDataValue.MAX_REPORTED_VALUE = true.
Proof. vm_compute. reflexivity. Qed.

(** A float that is not nan and is neither below 0.0 nor above 63.5 is in
    the closed range. *)
Lemma float_between_bounds (f : float) :
  PrimFloat.eqb f f = true ->
  PrimFloat.ltb f 0%float = false ->
  PrimFloat.ltb RxMerDataValue.MAX_REPORTED_VALUE f = false ->
  in_dB_range (NFloat f) = true.
Proof.
  intros Hn H0 Hmax. unfold in_dB_range.
  change 63.5%float with RxMerDataValue.MAX_REPORTED_VALUE.
  pose proof zero_not_nan as Hz. pose proof max_not_nan as Hm.
  rewrite eqb_spec in Hn, Hz, Hm. rewrite ltb_spec in H0, Hmax.
  rewrite !leb_spec.
  rewrite (SFleb_of_not_SFltb _ _ Hz Hn H0).
  rewrite (SFleb_of_not_SFltb _ _ Hn Hm Hmax).
  reflexivity.
Qed.

(** The float path keeps every float that is not nan inside [0.0, 63.5]. *)
Lemma float_path_in_range (f : float) :
  PrimFloat.eqb f f = true ->
  in_dB_range
    (NFloat (min_float (max_float f 0%float) RxMerDataValue.MAX_REPORTED_VALUE)) = true.
Proof.
  intros Hn.
  destruct (PrimFloat.ltb f 0%float) eqn:H0.
  - rewrite float_below_zero by exact H0. reflexivity.
  - destruct (PrimFloat.ltb RxMerDataValue.MAX_REPORTED_VALUE f) eqn:Hmax.
    + rewrite float_above_max by exact Hmax. reflexivity.
    + unfold max_float, min_float. rewrite H0, Hmax.
      apply float_between_bounds; assumption.
Qed.

(** The raw path keeps every integer other than 255 inside [0.0, 63.5]. *)
Lemma raw_path_in_range (v : Z) :
  in_dB_range (NFloat (int_truediv (min_int (max_int v 0) 254) 4%float)) = true.
Proof.
  assert (Hc : 0 <= min_int (max_int v 0) 254 <= 254).
  { unfold min_int, max_int.
    destruct (Z.ltb_spec v 0); destruct (Z.ltb_spec 254 0);
      try destruct (Z.ltb_spec 254 v); lia. }
  pose proof quarter_lattice_checked as Hall.
  rewrite forallb_forall in Hall.
  specialize (Hall _ (in_raw_range _ Hc)).
  apply andb_prop in Hall. apply Hall.
Qed.

(** Numeric input is never rejected. *)
Lemma numeric_input_accepted (value : pyval) :
  isinstance_int value <> None \/ isinstance_float value <> None ->
  exists obj, RxMerDataValue.__init__ value = Ok obj.
Proof.
  intros Hnum. unfold RxMerDataValue.__init__.
  destruct value as [z | b | f | s | ]; cbn in Hnum.
  - destruct (Z.eq_dec z RxMerDataValue.NO_MEASUREMENT) as [-> | Hz].
    + eexists. reflexivity.
    + rewrite validate_raw by exact Hz. eexists. reflexivity.
  - destruct b; eexists; vm_compute; reflexivity.
  - rewrite validate_float. eexists. reflexivity.
  - destruct Hnum as [Hn | Hn]; contradiction.
  - destruct Hnum as [Hn | Hn]; contradiction.
Qed.

(** C3. Numeric input outside the range is clamped, never rejected: an
    integer above 254 other than 255 decodes like 254, to 63.5; a float below
    0.0 is stored as 0.0; a float above 63.5 is stored as 63.5; and every
    integer or float is accepted. *)
Theorem C3_out_of_range_is_clamped :
  (forall v : Z, 254 < v -> v <> 255 ->
     RxMerDataValue.__init__ (PyInt v) = RxMerDataValue.__init__ (PyInt 254)
     /\ RxMerDataValue.__init__ (PyInt v)
        = Ok (RxMerDataValue.mk (NFloat 63.5%float)))
  /\ (forall f : float, PrimFloat.ltb f 0%float = true ->
        exists obj, RxMerDataValue.__init__ (PyFloat f) = Ok obj
                    /\ RxMerDataValue.getRxMER obj = NFloat 0%float)
  /\ (forall f : float, PrimFloat.ltb 63.5%float f = true ->
        exists obj, RxMerDataValue.__init__ (PyFloat f) = Ok obj
                    /\ RxMerDataValue.getRxMER obj = NFloat 63.5%float)
  /\ (forall value : pyval,
        isinstance_int value <> None \/ isinstance_float value <> None ->
        exists obj, RxMerDataValue.__init__ value = Ok obj).
Proof.
  repeat split.
  - unfold RxMerDataValue.__init__.
    rewrite !validate_raw by (unfold RxMerDataValue.NO_MEASUREMENT; lia).
    rewrite clamp_above by assumption. reflexivity.
  - unfold RxMerDataValue.__init__.
    rewrite validate_raw by (unfold RxMerDataValue.NO_MEASUREMENT; lia).
    rewrite clamp_above by assumption. vm_compute. reflexivity.
  - intros f Hf. eexists. unfold RxMerDataValue.__init__.
    rewrite validate_float, float_below_zero by exact Hf.
    split; reflexivity.
  - intros f Hf. eexists. unfold RxMerDataValue.__init__.
    rewrite validate_float, float_above_max by exact Hf.
    split; reflexivity.
  - apply numeric_input_accepted.
Qed.

Lemma C3_out_of_range_is_clamped_witness :
  RxMerDataValue.__init__ (PyInt 300) = Ok (RxMerDataValue.mk (NFloat 63.5%float))
  /\ (exists obj, RxMerDataValue.__init__ (PyFloat (-1.5)%float) = Ok obj
                  /\ RxMerDataValue.getRxMER obj = NFloat 0%float)
  /\ (exists obj, RxMerDataValue.__init__ (PyFloat 100%float) = Ok obj
                  /\ RxMerDataValue.getRxMER obj = NFloat 63.5%float).
Proof.
  destruct C3_out_of_range_is_clamped as (Hint & Hlow & Hhigh & _).
  split; [|split].
  - apply (Hint 300); [lia | discriminate].
  - apply (Hlow (-1.5)%float). vm_compute. reflexivity.
  - apply (Hhigh 100%float). vm_compute. reflexivity.
Defined.

(** ** Input that is not a number *)

(** C4 (as the code has it). An input that is neither an [int] nor a
    [float] makes [_validate_value] raise [ValueError]; the constructor does
    not catch it, so the caller of the constructor gets it.  The message is
    the fixed text [Invalid RxMER value], the same for every such input. *)
Theorem C4_non_numeric_raises (value : pyval)
  (Hint : isinstance_int value = None)
  (Hfloat : isinstance_float value = None) :
  RxMerDataValue._validate_value value = Raise (ValueError "Invalid RxMER value")
  /\ RxMerDataValue.__init__ value = Raise (ValueError "Invalid RxMER value").
Proof.
  unfold RxMerDataValue.__init__, RxMerDataValue._validate_value.
  rewrite Hint, Hfloat. split; reflexivity.
Qed.

Lemma C4_non_numeric_raises_witness :
  isinstance_int PyNone = None /\ isinstance_float PyNone = None
  /\ RxMerDataValue._validate_value PyNone = Raise (ValueError "Invalid RxMER value")
  /\ RxMerDataValue.__init__ PyNone = Raise (ValueError "Invalid RxMER value").
Proof.
  split; [reflexivity|]. split; [reflexivity|].
  apply (C4_non_numeric_raises PyNone); reflexivity.
Defined.

(** C4, the part that fails: the error raised for the string [abc] does not
    contain [abc]; the offending input is not echoed. *)
Lemma C4_input_is_not_echoed :
  exists e, RxMerDataValue.__init__ (PyStr "abc") = Raise e
            /\ echoes e "abc" = false.
Proof.
  exists (ValueError "Invalid RxMER value"). split; vm_compute; reflexivity.
Qed.

(** The predicate is not vacuous: a message that contains the input echoes it. *)
Example echoes_when_contained :
  echoes (ValueError "Invalid RxMER value: abc") "abc" = true.
Proof. vm_compute. reflexivity. Qed.

(** A [bool] is an [int] for [isinstance]: [True] is accepted and decodes
    as the raw value 1. *)
Example bool_takes_the_int_path :
  RxMerDataValue.__init__ (PyBool true)
  = Ok (RxMerDataValue.mk (NFloat 0.25%float)).
Proof. vm_compute. reflexivity. Qed.

(** An exception raised by an element aborts the whole comprehension. *)
Lemma list_comprehension_raises {A B : Type} (f : A -> result B)
      (done : list A) (x : A) (rest : list A) (e : exn) :
  (forall y, In y done -> exists b, f y = Ok b) ->
  f x = Raise e ->
  list_comprehension f (done ++ x :: rest)%list = Raise e.
Proof.
  induction done as [| y done IH]; intros Hdone Hx; simpl.
  - rewrite Hx. reflexivity.
  - destruct (Hdone y (or_introl eq_refl)) as [b Hb]. rewrite Hb. simpl.
    rewrite IH; [reflexivity | | exact Hx].
    intros z Hz. apply Hdone. right. exact Hz.
Qed.

(** ** [isMaxValue] *)

(** No integer equals 63.5. *)
Lemma int_is_not_max (z : Z) :
  num_eq (NInt z) (NFloat RxMerDataValue.MAX_REPORTED_VALUE) = false.
Proof.
  unfold num_eq, float_to_Q. rewrite Prim2SF_max.
  cbv beta iota zeta.
  change (0 <=? -47) with false. cbv iota.
  apply not_true_is_false. intros E. apply Qeq_bool_iff in E.
  unfold Qeq, inject_Z in E. cbn [Qnum Qden] in E.
  change (Z.pos (Z.to_pos (2 ^ (- -47)))) with 140737488355328 in E.
  lia.
Qed.

(** C5. [isMaxValue()] is true exactly when the stored value is the float
    63.5: so it is for a value built from 63.5, it is not for one built from
    63.49 (the binary64 value nearest to it, [0x1.fbeb851eb851fp+5]), and it
    is not for the sentinel. *)
Theorem C5_isMaxValue_iff_max :
  (forall obj : RxMerDataValue.t,
     RxMerDataValue.isMaxValue obj = true
     <-> RxMerDataValue.value obj = NFloat 63.5%float)
  /\ (exists obj, RxMerDataValue.__init__ (PyFloat 63.5%float) = Ok obj
                  /\ RxMerDataValue.isMaxValue obj = true)
  /\ (exists obj, RxMerDataValue.__init__ (PyFloat 0x1.fbeb851eb851fp+5%float) = Ok obj
                  /\ RxMerDataValue.isMaxValue obj = false)
  /\ (exists obj, RxMerDataValue.__init__ (PyInt 255) = Ok obj
                  /\ RxMerDataValue.isMaxValue obj = false).
Proof.
  split; [|split; [|split]].
  - intros [[z | f]]; unfold RxMerDataValue.isMaxValue; cbn [RxMerDataValue.value].
    + rewrite int_is_not_max. split; discriminate.
    + split.
      * intros E. apply eqb_max_eq in E. rewrite E. reflexivity.
      * intros E. inversion E. vm_compute. reflexivity.
  - eexists. split; vm_compute; reflexivity.
  - eexists. split; vm_compute; reflexivity.
  - eexists. split; vm_compute; reflexivity.
Qed.

(** ** The stored value *)

(** X2. What the constructor stores for an integer, or for a float that is
    not nan, is in [0.0, 63.5] or is the sentinel 255. *)
Lemma stored_value_in_range_or_sentinel (value : pyval) (obj : RxMerDataValue.t) :
  (forall f, value = PyFloat f -> PrimFloat.eqb f f = true) ->
  RxMerDataValue.__init__ value = Ok obj ->
  in_dB_range (RxMerDataValue.value obj) = true
  \/ RxMerDataValue.value obj = NInt RxMerDataValue.NO_MEASUREMENT.
Proof.
  intros Hnan. unfold RxMerDataValue.__init__.
  destruct value as [z | b | f | s | ].
  - destruct (Z.eq_dec z RxMerDataValue.NO_MEASUREMENT) as [-> | Hz].
    + intros E. inversion E. right. reflexivity.
    + rewrite validate_raw by exact Hz. intros E. inversion E.
      left. apply raw_path_in_range.
  - destruct b; vm_compute; intros E; inversion E; left; reflexivity.
  - rewrite validate_float. intros E. inversion E. left.
    apply float_path_in_range. apply Hnan. reflexivity.
  - discriminate.
  - discriminate.
Qed.

(** C9, where the code departs from it: the float path lets nan through.
    [min(max(nan, 0.0), 63.5)] is nan, since every comparison with nan is
    false; the stored value is then neither in [0.0, 63.5] nor the sentinel. *)
Theorem C9_nan_is_stored_unclamped :
  RxMerDataValue.__init__ (PyFloat nan) = Ok (RxMerDataValue.mk (NFloat nan))
  /\ in_dB_range (NFloat nan) = false
  /\ num_eq (NFloat nan) (NInt RxMerDataValue.NO_MEASUREMENT) = false.
Proof. repeat split; vm_compute; reflexivity. Qed.

(** ** JSON views *)

Lemma append_assoc (a b c : string) : ((a ++ b) ++ c = a ++ (b ++ c))%string.
Proof.
  induction a as [| x a IH]; simpl; [reflexivity | rewrite IH; reflexivity].
Qed.

(** Scanning undoes the escape of one character. *)
Lemma scanstring_escape_char (c : ascii) (tail s : string) :
  scanstring tail = Some s ->
  scanstring (escape_char c ++ tail) = Some (String c s).
Proof.
  intros E.
  destruct c as [[] [] [] [] [] [] [] []]; cbn; rewrite E; reflexivity.
Qed.

Lemma scanstring_escape (s : string) :
  scanstring (escape s ++ String dquote "") = Some s.
Proof.
  induction s as [| c s IH]; [reflexivity|].
  cbn [escape]. rewrite append_assoc.
  apply scanstring_escape_char. exact IH.
Qed.

(** An encoded string is one string token, and reading it back gives the
    text that was encoded. *)
Lemma loads_string_encode (s : string) :
  loads_string (encode_basestring_ascii s) = Some s.
Proof.
  unfold loads_string, encode_basestring_ascii.
  change (N_of_ascii dquote =? 34)%N with true. cbv iota.
  apply scanstring_escape.
Qed.

Section Json.
Context `{FloatRepr}.

(** The text of one value: three fields, in the order of the dict. *)
Lemma value_toJson_text (v : RxMerDataValue.t) :
  RxMerDataValue.toJson v
  = "{" ++ ((quoted "value" ++ ": " ++ dumps (JNum (RxMerDataValue.value v)))
            ++ ", "
            ++ (quoted "isMaxValue" ++ ": "
                  ++ dumps (JBool (RxMerDataValue.isMaxValue v)))
            ++ ", "
            ++ quoted "isMeasurement" ++ ": "
                  ++ dumps (JBool (RxMerDataValue.isMeasurement v)))
        ++ "}".
Proof. reflexivity. Qed.

(** The text of a sequence: one field, whose entries are string tokens. *)
Lemma sequence_toJson_text (rd : RxMerData.t) :
  RxMerData.toJson rd
  = "{" ++ (quoted "values" ++ ": " ++ "["
              ++ String.concat ", "
                   (map (fun v => encode_basestring_ascii (RxMerDataValue.toJson v))
                        (RxMerData.values rd))
              ++ "]")
        ++ "}".
Proof.
  unfold RxMerData.toJson, RxMerData.toJson_dict.
  cbn [dumps map String.concat fst snd]. rewrite map_map. reflexivity.
Qed.

(** C6. The JSON view of a sequence is an object with the one field
    [values]; its entries are, in order, the strings returned by the
    elements' [toJson], each written as a JSON string token (reading the
    token back gives the element's JSON text, it is not a nested object);
    an element's JSON has the three fields [value], [isMaxValue] and
    [isMeasurement]; and the empty sequence has size 0 and the view
    [{"values": []}]. *)
Theorem C6_sequence_json_wraps_strings :
  (forall rd : RxMerData.t,
     RxMerData.toJson_dict rd
     = JDict [("values",
               JList (map JStr (map RxMerDataValue.toJson (RxMerData.values rd))))]
     /\ RxMerData.toJson rd
        = "{" ++ (quoted "values" ++ ": " ++ "["
                    ++ String.concat ", "
                         (map encode_basestring_ascii
                              (map RxMerDataValue.toJson (RxMerData.values rd)))
                    ++ "]")
              ++ "}")
  /\ (forall v : RxMerDataValue.t,
        loads_string (encode_basestring_ascii (RxMerDataValue.toJson v))
        = Some (RxMerDataValue.toJson v))
  /\ (forall v : RxMerDataValue.t,
        RxMerDataValue.toJson_dict v
        = JDict [("value", JNum (RxMerDataValue.value v));
                 ("isMaxValue", JBool (RxMerDataValue.isMaxValue v));
                 ("isMeasurement", JBool (RxMerDataValue.isMeasurement v))]
        /\ RxMerDataValue.toJson v
           = "{" ++ ((quoted "value" ++ ": " ++ dumps (JNum (RxMerDataValue.value v)))
                     ++ ", "
                     ++ (quoted "isMaxValue" ++ ": "
                           ++ dumps (JBool (RxMerDataValue.isMaxValue v)))
                     ++ ", "
                     ++ quoted "isMeasurement" ++ ": "
                           ++ dumps (JBool (RxMerDataValue.isMeasurement v)))
                 ++ "}")
  /\ RxMerData.toJson (RxMerData.__init__ []) = "{" ++ quoted "values" ++ ": []}"
  /\ RxMerData.size (RxMerData.__init__ []) = 0.
Proof.
  split; [|split; [|split; [|split]]].
  - intros rd. split.
    + unfold RxMerData.toJson_dict. rewrite map_map. reflexivity.
    + rewrite sequence_toJson_text, map_map. reflexivity.
  - intros v. apply loads_string_encode.
  - intros v. split; [reflexivity | apply value_toJson_text].
  - reflexivity.
  - reflexivity.
Qed.

(** The sequence holding the sentinel alone: the entry is the element's
    JSON between quotes, with its own quotes escaped. *)
Example sentinel_sequence_json :
  RxMerData.toJson (RxMerData.__init__ [RxMerDataValue.mk (NInt 255)])
  = "{" ++ quoted "values" ++ ": ["
        ++ String dquote
             ("{\" ++ quoted "value\" ++ ": 255, \"
                   ++ quoted "isMaxValue\" ++ ": false, \"
                   ++ quoted "isMeasurement\" ++ ": false}"
                   ++ String dquote "]}").
Proof. vm_compute. reflexivity. Qed.

End Json.

(** With the exact decimal printer: the JSON text of the value 63.5. *)
Example max_value_json :
  @RxMerDataValue.toJson exact_decimal (RxMerDataValue.mk (NFloat 63.5%float))
  = "{" ++ quoted "value" ++ ": 63.5, "
        ++ quoted "isMaxValue" ++ ": true, "
        ++ quoted "isMeasurement" ++ ": true}".
Proof. vm_compute. reflexivity. Qed.

(** ** The processor *)

(** The constructor on an integer is the raw-byte path of the
    specification. *)
Lemma init_is_spec_raw_byte_path (z : Z) :
  RxMerDataValue.__init__ (PyInt z) = Ok (RxMerDataValue.mk (spec_raw_byte_path z)).
Proof.
  unfold RxMerDataValue.__init__, spec_raw_byte_path.
  destruct (Z.eqb_spec z 255) as [-> | Hz]; [reflexivity|].
  rewrite validate_raw by exact Hz. cbn [bind].
  replace (min_int (max_int z 0) 254) with (Z.min (Z.max z 0) 254);
    [reflexivity|].
  unfold min_int, max_int.
  destruct (Z.ltb_spec z 0); destruct (Z.ltb_spec 254 0);
    try destruct (Z.ltb_spec 254 z); lia.
Qed.

(** A comprehension whose every call returns is a [map]. *)
Lemma list_comprehension_map {A B : Type} (f : A -> result B) (g : A -> B)
      (xs : list A) :
  (forall x, In x xs -> f x = Ok (g x)) ->
  list_comprehension f xs = Ok (map g xs).
Proof.
  induction xs as [| x xs IH]; intros Hf; [reflexivity|].
  cbn [list_comprehension map]. rewrite (Hf x (or_introl eq_refl)). cbn [bind].
  rewrite IH; [reflexivity|]. intros y Hy. apply Hf. right. exact Hy.
Qed.

(** Parsing a present payload: one value per byte, in the payload's order. *)
Lemma parse_present (header : RX_MER.PnmHeader) (prev : option RxMerData.t)
      (payload : list byte) :
  RX_MER.getPnmData header = Some payload ->
  RX_MER._parse_rxmer_data (RX_MER.mk header prev)
  = Ok (RxMerData.mk
          (map (fun z => RxMerDataValue.mk (spec_raw_byte_path z))
               (RX_MER.list_of_bytes payload))).
Proof.
  intros Hp. unfold RX_MER._parse_rxmer_data. cbn [RX_MER.pnm_header].
  rewrite Hp.
  rewrite (list_comprehension_map _
             (fun z => RxMerDataValue.mk (spec_raw_byte_path z))).
  - reflexivity.
  - intros z _. apply init_is_spec_raw_byte_path.
Qed.

Lemma parse_absent (header : RX_MER.PnmHeader) (prev : option RxMerData.t) :
  RX_MER.getPnmData header = None ->
  RX_MER._parse_rxmer_data (RX_MER.mk header prev) = Ok (RxMerData.mk []).
Proof.
  intros Hp. unfold RX_MER._parse_rxmer_data. cbn [RX_MER.pnm_header].
  rewrite Hp. reflexivity.
Qed.

(** [process_data()] always returns, and leaves a sequence in the field. *)
Lemma process_data_total (self : RX_MER.t) :
  exists rd, RX_MER.process_data self
             = Ok (RX_MER.mk (RX_MER.pnm_header self) (Some rd)).
Proof.
  destruct self as [header prev]. unfold RX_MER.process_data.
  destruct (RX_MER.getPnmData header) as [payload |] eqn:Hp.
  - rewrite (parse_present header prev payload Hp). eexists. reflexivity.
  - rewrite (parse_absent header prev Hp). eexists. reflexivity.
Qed.

(** C7. For a present payload [process_data()] returns and leaves a
    sequence with one element per payload byte; the element at index [i] is
    what the constructor builds from byte [i], by the raw-byte path.  The
    payload [0, 4, 254, 255] gives the values [0.0, 1.0, 63.5, 255] and the
    [isMeasurement()] flags [true, true, true, false]. *)
Theorem C7_payload_decoded_in_order :
  (forall (payload : list byte) (prev : option RxMerData.t),
     exists rd,
       RX_MER.process_data (RX_MER.mk (RX_MER.mkHeader (Some payload)) prev)
       = Ok (RX_MER.mk (RX_MER.mkHeader (Some payload)) (Some rd))
       /\ RxMerData.size rd = Z.of_nat (List.length payload)
       /\ forall (i : nat) (b : byte),
            nth_error payload i = Some b ->
            exists v,
              nth_error (RxMerData.values rd) i = Some v
              /\ RxMerDataValue.__init__ (PyInt (Z.of_N (Byte.to_N b))) = Ok v
              /\ RxMerDataValue.getRxMER v
                 = spec_raw_byte_path (Z.of_N (Byte.to_N b)))
  /\ (exists rd,
        RX_MER.process_data
          (RX_MER.__init__ (RX_MER.mkHeader (Some [x00; x04; xfe; xff])))
        = Ok (RX_MER.mk (RX_MER.mkHeader (Some [x00; x04; xfe; xff])) (Some rd))
        /\ RxMerData.size rd = 4
        /\ map RxMerDataValue.getRxMER (RxMerData.values rd)
           = [NFloat 0%float; NFloat 1%float; NFloat 63.5%float; NInt 255]
        /\ map RxMerDataValue.isMeasurement (RxMerData.values rd)
           = [true; true; true; false]).
Proof.
  split.
  - intros payload prev.
    eexists. split; [|split].
    + unfold RX_MER.process_data.
      rewrite (parse_present (RX_MER.mkHeader (Some payload)) prev payload eq_refl).
      reflexivity.
    + unfold RxMerData.size, RX_MER.list_of_bytes. cbn [RxMerData.values].
      rewrite !length_map. reflexivity.
    + intros i b Hb. cbn [RxMerData.values].
      exists (RxMerDataValue.mk (spec_raw_byte_path (Z.of_N (Byte.to_N b)))).
      split; [|split].
      * unfold RX_MER.list_of_bytes. rewrite map_map.
        apply (map_nth_error
                 (fun x => RxMerDataValue.mk (spec_raw_byte_path (Z.of_N (Byte.to_N x))))).
        exact Hb.
      * apply init_is_spec_raw_byte_path.
      * reflexivity.
  - eexists. repeat split; vm_compute; reflexivity.
Qed.

Lemma C7_payload_decoded_in_order_witness :
  nth_error [x01; xff] 1 = Some xff
  /\ exists rd,
       RX_MER.process_data (RX_MER.mk (RX_MER.mkHeader (Some [x01; xff])) None)
       = Ok (RX_MER.mk (RX_MER.mkHeader (Some [x01; xff])) (Some rd))
       /\ RxMerData.size rd = 2
       /\ exists v,
            nth_error (RxMerData.values rd) 1 = Some v
            /\ RxMerDataValue.__init__ (PyInt 255) = Ok v
            /\ RxMerDataValue.getRxMER v = NInt 255.
Proof.
  split; [reflexivity|].
  destruct (proj1 C7_payload_decoded_in_order [x01; xff] None)
    as (rd & Hrun & Hsize & Hnth).
  exists rd. split; [exact Hrun|]. split; [exact Hsize|].
  exact (Hnth 1%nat xff eq_refl).
Defined.

(** C8. When the header reports no payload, [process_data()] and [run()]
    return without an error and leave the empty sequence, of size 0. *)
Theorem C8_absent_payload_gives_empty (self : RX_MER.t)
  (Habsent : RX_MER.getPnmData (RX_MER.pnm_header self) = None) :
  exists self' rd,
    RX_MER.run self = Ok self'
    /\ RX_MER.process_data self = Ok self'
    /\ RX_MER.rxmer_data self' = Some rd
    /\ RxMerData.values rd = []
    /\ RxMerData.size rd = 0.
Proof.
  destruct self as [header prev]. cbn [RX_MER.pnm_header] in Habsent.
  exists (RX_MER.mk header (Some (RxMerData.mk []))), (RxMerData.mk []).
  unfold RX_MER.run, RX_MER.process_data.
  rewrite (parse_absent header prev Habsent).
  repeat split; reflexivity.
Qed.

Lemma C8_absent_payload_gives_empty_witness :
  RX_MER.getPnmData (RX_MER.pnm_header (RX_MER.__init__ (RX_MER.mkHeader None))) = None
  /\ exists self' rd,
       RX_MER.run (RX_MER.__init__ (RX_MER.mkHeader None)) = Ok self'
       /\ RX_MER.process_data (RX_MER.__init__ (RX_MER.mkHeader None)) = Ok self'
       /\ RX_MER.rxmer_data self' = Some rd
       /\ RxMerData.values rd = []
       /\ RxMerData.size rd = 0.
Proof.
  split; [reflexivity|].
  apply (C8_absent_payload_gives_empty (RX_MER.__init__ (RX_MER.mkHeader None))).
  reflexivity.
Defined.

Section Processor.
Context `{FloatRepr}.

(** No step takes the sequence away. *)
Lemma step_keeps_sequence (s s' : RX_MER.t) :
  step s s' ->
  (exists rd, RX_MER.rxmer_data s = Some rd) ->
  exists rd, RX_MER.rxmer_data s' = Some rd.
Proof.
  intros Hstep Hs.
  destruct Hstep as [s s' Hp | s s' Hr | s text Ht | s payload].
  - destruct (process_data_total s) as [rd Hrd].
    rewrite Hrd in Hp. inversion Hp. exists rd. reflexivity.
  - unfold RX_MER.run in Hr. destruct (process_data_total s) as [rd Hrd].
    rewrite Hrd in Hr. inversion Hr. exists rd. reflexivity.
  - exact Hs.
  - exact Hs.
Qed.

Lemma processed_has_sequence (s : RX_MER.t) :
  processed s -> exists rd, RX_MER.rxmer_data s = Some rd.
Proof.
  induction 1 as [s s' Hfirst | s s' _ IH Hstep].
  - destruct (process_data_total s) as [rd Hrd].
    unfold RX_MER.run in Hfirst.
    assert (Hp : RX_MER.process_data s = Ok s') by (destruct Hfirst; assumption).
    rewrite Hrd in Hp. inversion Hp. exists rd. reflexivity.
  - exact (step_keeps_sequence s s' Hstep IH).
Qed.

(** C10. A new processor holds no sequence, and [toJson()] on it raises
    instead of returning a text.  [process_data()] and [run()] return on
    every state; from then on, whatever is called next, the field holds a
    sequence and [toJson()] returns its JSON view. *)
Theorem C10_toJson_needs_processing :
  (forall header : RX_MER.PnmHeader,
     RX_MER.rxmer_data (RX_MER.__init__ header) = None
     /\ RX_MER.toJson (RX_MER.__init__ header)
        = Raise (AttributeError "'NoneType' object has no attribute 'toJson'"))
  /\ (forall s : RX_MER.t,
        exists s', RX_MER.process_data s = Ok s'
                   /\ RX_MER.run s = Ok s'
                   /\ processed s')
  /\ (forall s : RX_MER.t,
        processed s ->
        exists rd, RX_MER.rxmer_data s = Some rd
                   /\ RX_MER.toJson s = Ok (RxMerData.toJson rd)).
Proof.
  split; [|split].
  - intros header. split; reflexivity.
  - intros s. destruct (process_data_total s) as [rd Hrd].
    eexists. split; [exact Hrd|]. split; [exact Hrd|].
    apply (processed_first s). left. exact Hrd.
  - intros s Hs. destruct (processed_has_sequence s Hs) as [rd Hrd].
    exists rd. split; [exact Hrd|].
    unfold RX_MER.toJson. rewrite Hrd. reflexivity.
Qed.

End Processor.

Lemma C10_toJson_needs_processing_witness :
  @processed exact_decimal
    (RX_MER.mk (RX_MER.mkHeader (Some [x04])) 
                       (Some (RxMerData.mk [RxMerDataValue.mk (NFloat 1%float)])))
  /\ exists rd,
       RX_MER.rxmer_data
         (RX_MER.mk (RX_MER.mkHeader (Some [x04]))
                    (Some (RxMerData.mk [RxMerDataValue.mk (NFloat 1%float)])))
       = Some rd
       /\ @RX_MER.toJson exact_decimal
            (RX_MER.mk (RX_MER.mkHeader (Some [x04]))
                       (Some (RxMerData.mk [RxMerDataValue.mk (NFloat 1%float)])))
          = Ok (@RxMerData.toJson exact_decimal rd).
Proof.
  assert (Hp : @processed exact_decimal
                 (RX_MER.mk (RX_MER.mkHeader (Some [x04]))
                    (Some (RxMerData.mk [RxMerDataValue.mk (NFloat 1%float)])))).
  { apply (@processed_first exact_decimal (RX_MER.__init__ (RX_MER.mkHeader (Some [x04])))).
    left. vm_compute. reflexivity. }
  split; [exact Hp|].
  exact (proj2 (proj2 (@C10_toJson_needs_processing exact_decimal)) _ Hp).
Defined.

(** * Further properties of the code *)

(** ** More on comparisons *)

(** On spec floats, [x <= y] excludes [y < x]. *)
Lemma SFltb_false_of_SFleb (x y : spec_float) :
  SFleb x y = true -> SFltb y x = false.
Proof.
  unfold SFltb, SFleb, SFcompare.
  destruct x as [sx | sx | | sx mx ex], y as [sy | sy | | sy my ey];
    try destruct sx; try destruct sy; intros Hle;
    try reflexivity; try discriminate.
  - rewrite (Z.compare_antisym ex ey).
    destruct (ex ?= ey); cbn [CompOpp] in *; try reflexivity;
      try discriminate Hle.
    pose proof (Pos.compare_antisym mx my) as Ha.
    unfold Pos.compare in Ha. rewrite Ha.
    destruct (PosDef.Pos.compare_cont Eq mx my);
      cbn [CompOpp] in *; try reflexivity; discriminate Hle.
  - rewrite (Z.compare_antisym ex ey).
    destruct (ex ?= ey); cbn [CompOpp] in *; try reflexivity;
      try discriminate Hle.
    pose proof (Pos.compare_antisym mx my) as Ha.
    unfold Pos.compare in Ha. rewrite Ha.
    destruct (PosDef.Pos.compare_cont Eq mx my);
      cbn [CompOpp] in *; try reflexivity; discriminate Hle.
Qed.

(** [x < y] gives [x <= y]. *)
Lemma SFleb_of_SFltb (x y : spec_float) : SFltb x y = true -> SFleb x y = true.
Proof.
  unfold SFltb, SFleb. destruct (SFcompare x y) as [[| |] |];
    intros E; try reflexivity; discriminate E.
Qed.

(** [x <= y] without [x < y] is [y == x]. *)
Lemma SFeqb_of_SFleb_not_SFltb (x y : spec_float) :
  SFleb x y = true -> SFltb x y = false -> SFeqb x y = true.
Proof.
  unfold SFltb, SFleb, SFeqb. destruct (SFcompare x y) as [[| |] |];
    intros E1 E2; try reflexivity; discriminate.
Qed.

Lemma ltb_false_of_leb (x y : float) :
  PrimFloat.leb x y = true -> PrimFloat.ltb y x = false.
Proof. rewrite leb_spec, ltb_spec. apply SFltb_false_of_SFleb. Qed.

(** The clamp of the float path, case by case. *)
Lemma float_clamp_cases (f : float) :
  let y := min_float (max_float f 0%float) RxMerDataValue.MAX_REPORTED_VALUE in
  (PrimFloat.ltb f 0%float = true /\ y = 0%float)
  \/ (PrimFloat.ltb f 0%float = false
      /\ PrimFloat.ltb RxMerDataValue.MAX_REPORTED_VALUE f = true
      /\ y = RxMerDataValue.MAX_REPORTED_VALUE)
  \/ (PrimFloat.ltb f 0%float = false
      /\ PrimFloat.ltb RxMerDataValue.MAX_REPORTED_VALUE f = false
      /\ y = f).
Proof.
  cbv zeta.
  destruct (PrimFloat.ltb f 0%float) eqn:H0.
  - left. split; [reflexivity | apply float_below_zero; exact H0].
  - right.
    destruct (PrimFloat.ltb RxMerDataValue.MAX_REPORTED_VALUE f) eqn:Hmax.
    + left. split; [reflexivity|]. split; [reflexivity|].
      apply float_above_max. exact Hmax.
    + right. split; [reflexivity|]. split; [reflexivity|].
      unfold max_float, min_float. rewrite H0, Hmax. reflexivity.
Qed.

(** In the range the clamp is the identity. *)
Lemma clamp_identity_in_range (f : float) :
  PrimFloat.leb 0%float f = true ->
  PrimFloat.leb f RxMerDataValue.MAX_REPORTED_VALUE = true ->
  min_float (max_float f 0%float) RxMerDataValue.MAX_REPORTED_VALUE = f.
Proof.
  intros Hlow Hhigh. unfold max_float, min_float.
  rewrite (ltb_false_of_leb _ _ Hlow), (ltb_false_of_leb _ _ Hhigh).
  reflexivity.
Qed.

(** X3. A float already in [0.0, 63.5] is stored as it is, bit for bit (no
    unit conversion on the float path). *)
Theorem float_in_range_is_kept (f : float)
  (Hlow : PrimFloat.leb 0%float f = true)
  (Hhigh : PrimFloat.leb f 63.5%float = true) :
  RxMerDataValue.__init__ (PyFloat f) = Ok (RxMerDataValue.mk (NFloat f)).
Proof.
  unfold RxMerDataValue.__init__. rewrite validate_float.
  rewrite (clamp_identity_in_range f Hlow Hhigh). reflexivity.
Qed.

Lemma float_in_range_is_kept_witness :
  PrimFloat.leb 0%float 12.25%float = true
  /\ PrimFloat.leb 12.25%float 63.5%float = true
  /\ RxMerDataValue.__init__ (PyFloat 12.25%float)
     = Ok (RxMerDataValue.mk (NFloat 12.25%float)).
Proof.
  split; [reflexivity|]. split; [reflexivity|].
  apply (float_in_range_is_kept 12.25%float); reflexivity.
Defined.

(** ** The sentinel comes from the integer 255 alone *)

Lemma digits2_pos_bound (m : positive) : Z.pos m < 2 ^ Z.pos (digits2_pos m).
Proof.
  induction m as [m IH | m IH |]; cbn [digits2_pos];
    try (rewrite Pos2Z.inj_succ, Z.pow_succ_r by lia; lia).
  reflexivity.
Qed.

(** The mantissa of a binary64 float is below [2^53]. *)
Lemma mantissa_bound (m : positive) (e : Z) :
  bounded prec emax m e = true -> Z.pos m < 2 ^ 53.
Proof.
  unfold bounded, canonical_mantissa, fexp. intros Hb.
  apply andb_prop in Hb. destruct Hb as [Hc _]. apply Z.eqb_eq in Hc.
  pose proof (digits2_pos_bound m) as Hd.
  assert (Hle : Z.pos (digits2_pos m) <= 53) by (unfold prec in Hc; lia).
  apply (Z.lt_le_trans _ _ _ Hd). apply Z.pow_le_mono_r; lia.
Qed.

(** A float that is not above 63.5 is not equal to the integer 255. *)
Lemma not_above_max_is_not_sentinel (y : float) :
  PrimFloat.ltb RxMerDataValue.MAX_REPORTED_VALUE y = false ->
  num_eq (NFloat y) (NInt RxMerDataValue.NO_MEASUREMENT) = false.
Proof.
  intros Hmax. unfold num_eq, float_to_Q.
  pose proof (Prim2SF_valid y) as Hv.
  rewrite ltb_spec, Prim2SF_max in Hmax.
  destruct (Prim2SF y) as [s | s | | s m e]; try reflexivity.
  cbn [SpecFloat.valid_binary] in Hv. pose proof (mantissa_bound m e Hv) as Hm.
  apply not_true_is_false. intros E. apply Qeq_bool_iff in E.
  destruct s.
  - destruct (0 <=? e); unfold Qeq, inject_Z in E; cbn [Qnum Qden] in E;
      unfold RxMerDataValue.NO_MEASUREMENT in E.
    + assert (0 < 2 ^ e) by (apply Z.pow_pos_nonneg; lia). nia.
    + lia.
  - unfold SFltb, SFcompare in Hmax.
    assert (He : e <= -47).
    { destruct (Z.compare_spec (-47) e) as [He | He | He];
        [lia | discriminate Hmax | lia]. }
    clear Hmax.
    destruct (Z.leb_spec 0 e) as [Hpos | Hneg]; [lia|].
    unfold Qeq, inject_Z in E; cbn [Qnum Qden] in E.
    unfold RxMerDataValue.NO_MEASUREMENT in E.
    assert (Hp : 2 ^ 47 <= 2 ^ (- e)) by (apply Z.pow_le_mono_r; lia).
    rewrite Z2Pos.id in E by lia.
    change (2 ^ 47) with 140737488355328 in Hp.
    change (2 ^ 53) with 9007199254740992 in Hm.
    lia.
Qed.

(** The 255 quotients [k / 4.0] again: none equals the integer 255, and
    [k / 4.0] equals 63.5 for [k = 254] only. *)
Lemma quarter_lattice_flags :
  forallb
    (fun k =>
       negb (num_eq (NFloat (int_truediv k 4%float))
                    (NInt RxMerDataValue.NO_MEASUREMENT))
       && Bool.eqb (num_eq (NFloat (int_truediv k 4%float))
                           (NFloat RxMerDataValue.MAX_REPORTED_VALUE))
                   (k =? 254))
    (map Z.of_nat (seq 0 255)) = true.
Proof. vm_compute. reflexivity. Qed.

Lemma clamp_bounds (z : Z) : 0 <= min_int (max_int z 0) 254 <= 254.
Proof.
  unfold min_int, max_int.
  destruct (Z.ltb_spec z 0); destruct (Z.ltb_spec 254 0);
    try destruct (Z.ltb_spec 254 z); lia.
Qed.

(** X5. [isMeasurement()] is false exactly for an object built from the
    integer 255.  Every other integer, every [bool] and every float (255.0
    and nan included) gives a measurement. *)
Theorem only_int_255_is_no_measurement (value : pyval) (obj : RxMerDataValue.t)
  (Hobj : RxMerDataValue.__init__ value = Ok obj) :
  RxMerDataValue.isMeasurement obj = false <-> value = PyInt 255.
Proof.
  unfold RxMerDataValue.__init__ in Hobj.
  unfold RxMerDataValue.isMeasurement, num_ne.
  destruct value as [z | b | f | s | ].
  - destruct (Z.eq_dec z RxMerDataValue.NO_MEASUREMENT) as [-> | Hz].
    + inversion Hobj. split; reflexivity.
    + rewrite validate_raw in Hobj by exact Hz. inversion Hobj.
      cbn [RxMerDataValue.value].
      pose proof quarter_lattice_flags as Hall.
      rewrite forallb_forall in Hall.
      specialize (Hall _ (in_raw_range _ (clamp_bounds z))).
      apply andb_prop in Hall. destruct Hall as [Hne _]. rewrite Hne.
      split; [discriminate|]. intros E. inversion E. contradiction.
  - destruct b; vm_compute in Hobj; inversion Hobj;
      split; intros E; discriminate E.
  - rewrite validate_float in Hobj. inversion Hobj. cbn [RxMerDataValue.value].
    rewrite not_above_max_is_not_sentinel; [split; intros E; discriminate E|].
    destruct (float_clamp_cases f) as [[_ ->] | [(_ & _ & ->) | (_ & Hm & ->)]];
      [reflexivity | reflexivity | exact Hm].
  - discriminate Hobj.
  - discriminate Hobj.
Qed.

Lemma only_int_255_is_no_measurement_witness :
  RxMerDataValue.__init__ (PyFloat 255%float)
  = Ok (RxMerDataValue.mk (NFloat 63.5%float))
  /\ (RxMerDataValue.isMeasurement (RxMerDataValue.mk (NFloat 63.5%float)) = false
      <-> PyFloat 255%float = PyInt 255).
Proof.
  split; [reflexivity|].
  apply (only_int_255_is_no_measurement (PyFloat 255%float)). reflexivity.
Defined.

(** ** Which inputs give the maximum *)

Lemma zero_is_not_max :
  PrimFloat.eqb 0%float RxMerDataValue.MAX_REPORTED_VALUE = false.
Proof. vm_compute. reflexivity. Qed.

(** Swapping the operands of a comparison of spec floats. *)
Lemma SFcompare_swap (x y : spec_float) :
  SFcompare y x = option_map CompOpp (SFcompare x y).
Proof.
  unfold SFcompare.
  destruct x as [sx | sx | | sx mx ex], y as [sy | sy | | sy my ey];
    try destruct sx; try destruct sy; try reflexivity.
  - cbn [option_map]. f_equal. rewrite (Z.compare_antisym ex ey).
    destruct (ex ?= ey); cbn [CompOpp]; try reflexivity.
    pose proof (Pos.compare_antisym mx my) as Ha.
    unfold Pos.compare in Ha. rewrite Ha.
    rewrite CompOpp_involutive. reflexivity.
  - cbn [option_map]. f_equal. rewrite (Z.compare_antisym ex ey).
    destruct (ex ?= ey); cbn [CompOpp]; try reflexivity.
    pose proof (Pos.compare_antisym mx my) as Ha.
    unfold Pos.compare in Ha. rewrite Ha. reflexivity.
Qed.

Lemma SFeqb_swap (x y : spec_float) : SFeqb y x = SFeqb x y.
Proof.
  unfold SFeqb. rewrite (SFcompare_swap x y).
  destruct (SFcompare x y) as [[| |] |]; reflexivity.
Qed.

(** A float below 0.0 is not at least 63.5. *)
Lemma below_zero_not_at_least_max (f : float) :
  PrimFloat.ltb f 0%float = true ->
  PrimFloat.leb RxMerDataValue.MAX_REPORTED_VALUE f = false.
Proof.
  rewrite ltb_spec, leb_spec, Prim2SF_max, Prim2SF_zero.
  unfold SFltb, SFleb, SFcompare.
  destruct (Prim2SF f) as [s | s | | s m e]; try destruct s;
    intros E; try reflexivity; discriminate E.
Qed.

(** X6. For a float input, [isMaxValue()] is true exactly when the input is
    at least 63.5 (so not for nan); for an integer input, exactly when it is
    at least 254 and is not 255. *)
Theorem isMaxValue_by_input :
  (forall (f : float) (obj : RxMerDataValue.t),
     RxMerDataValue.__init__ (PyFloat f) = Ok obj ->
     (RxMerDataValue.isMaxValue obj = true
      <-> PrimFloat.leb 63.5%float f = true))
  /\ (forall (z : Z) (obj : RxMerDataValue.t),
        RxMerDataValue.__init__ (PyInt z) = Ok obj ->
        (RxMerDataValue.isMaxValue obj = true <-> 254 <= z /\ z <> 255)).
Proof.
  split.
  - intros f obj Hobj. unfold RxMerDataValue.__init__ in Hobj.
    rewrite validate_float in Hobj. inversion Hobj as [Hv]. clear Hobj Hv.
    unfold RxMerDataValue.isMaxValue, num_eq. cbn [RxMerDataValue.value].
    change 63.5%float with RxMerDataValue.MAX_REPORTED_VALUE.
    destruct (float_clamp_cases f)
      as [[H0 ->] | [(H0 & Hm & ->) | (H0 & Hm & ->)]].
    + rewrite zero_is_not_max, (below_zero_not_at_least_max f H0).
      split; discriminate.
    + rewrite max_not_nan. split; [|reflexivity]. intros _.
      rewrite leb_spec. rewrite ltb_spec in Hm.
      apply SFleb_of_SFltb. exact Hm.
    + split.
      * intros E. apply eqb_max_eq in E. rewrite E. reflexivity.
      * intros Hle. rewrite leb_spec in Hle. rewrite ltb_spec in Hm.
        rewrite eqb_spec, SFeqb_swap.
        exact (SFeqb_of_SFleb_not_SFltb _ _ Hle Hm).
  - intros z obj Hobj. unfold RxMerDataValue.__init__ in Hobj.
    unfold RxMerDataValue.isMaxValue.
    destruct (Z.eq_dec z RxMerDataValue.NO_MEASUREMENT) as [-> | Hz].
    + inversion Hobj. cbn [RxMerDataValue.value].
      rewrite int_is_not_max. split; [discriminate|]. intros [_ Hn].
      contradiction.
    + rewrite validate_raw in Hobj by exact Hz. inversion Hobj.
      cbn [RxMerDataValue.value].
      pose proof quarter_lattice_flags as Hall.
      rewrite forallb_forall in Hall.
      specialize (Hall _ (in_raw_range _ (clamp_bounds z))).
      apply andb_prop in Hall. destruct Hall as [_ Hmx].
      apply Bool.eqb_prop in Hmx. rewrite Hmx.
      unfold RxMerDataValue.NO_MEASUREMENT in Hz.
      rewrite Z.eqb_eq. unfold min_int, max_int.
      destruct (Z.ltb_spec z 0); destruct (Z.ltb_spec 254 0);
        try destruct (Z.ltb_spec 254 z); lia.
Qed.

Lemma isMaxValue_by_input_witness :
  RxMerDataValue.__init__ (PyFloat 64%float)
  = Ok (RxMerDataValue.mk (NFloat 63.5%float))
  /\ (RxMerDataValue.isMaxValue (RxMerDataValue.mk (NFloat 63.5%float)) = true
      <-> PrimFloat.leb 63.5%float 64%float = true).
Proof.
  split; [reflexivity|].
  apply (proj1 isMaxValue_by_input 64%float). reflexivity.
Defined.

(** ** The raw path on every integer *)

(** X1. Whatever the integer other than 255, the stored float is exactly
    the rational [k/4] where [k] is the integer clamped to [0, 254]; a
    negative integer is stored as 0.0. *)
Theorem raw_path_on_every_integer (z : Z) (Hz : z <> 255) :
  exists f,
    RxMerDataValue.__init__ (PyInt z) = Ok (RxMerDataValue.mk (NFloat f))
    /\ (exists q, float_to_Q f = Some q /\ (q == Z.min (Z.max z 0) 254 # 4)%Q)
    /\ in_dB_range (NFloat f) = true
    /\ (z <= 0 -> f = 0%float).
Proof.
  exists (int_truediv (min_int (max_int z 0) 254) 4%float).
  assert (Hk : min_int (max_int z 0) 254 = Z.min (Z.max z 0) 254).
  { unfold min_int, max_int.
    destruct (Z.ltb_spec z 0); destruct (Z.ltb_spec 254 0);
      try destruct (Z.ltb_spec 254 z); lia. }
  pose proof quarter_lattice_checked as Hall.
  rewrite forallb_forall in Hall.
  specialize (Hall _ (in_raw_range _ (clamp_bounds z))).
  apply andb_prop in Hall. destruct Hall as [Hq Hr].
  split; [|split; [|split]].
  - unfold RxMerDataValue.__init__. rewrite validate_raw by exact Hz.
    reflexivity.
  - destruct (float_to_Q (int_truediv (min_int (max_int z 0) 254) 4%float))
      as [q|]; [|discriminate Hq].
    exists q. split; [reflexivity|]. rewrite <- Hk.
    apply Qeq_bool_iff. exact Hq.
  - exact Hr.
  - intros Hneg.
    replace (min_int (max_int z 0) 254) with 0 by (rewrite Hk; lia).
    reflexivity.
Qed.

Lemma raw_path_on_every_integer_witness :
  -7 <> 255
  /\ exists f,
       RxMerDataValue.__init__ (PyInt (-7)) = Ok (RxMerDataValue.mk (NFloat f))
       /\ (exists q, float_to_Q f = Some q
                     /\ (q == Z.min (Z.max (-7) 0) 254 # 4)%Q)
       /\ in_dB_range (NFloat f) = true
       /\ (-7 <= 0 -> f = 0%float).
Proof.
  split; [discriminate|].
  apply (raw_path_on_every_integer (-7)). discriminate.
Defined.

(** [int(x * 4)] gives back [k] from [x = k / 4.0]. *)
Lemma quarter_lattice_inverse :
  forallb
    (fun k =>
       match py_int (PrimFloat.mul (int_truediv k 4%float) 4%float) with
       | Ok k' => k' =? k
       | Raise _ => false
       end)
    (map Z.of_nat (seq 0 255)) = true.
Proof. vm_compute. reflexivity. Qed.

(** X7. Decoding loses nothing on bytes: two integers in [0, 255] that
    give the same object are the same integer. *)
Theorem raw_decoding_is_injective (a b : Z)
  (Ha : 0 <= a <= 255) (Hb : 0 <= b <= 255)
  (Hsame : RxMerDataValue.__init__ (PyInt a) = RxMerDataValue.__init__ (PyInt b)) :
  a = b.
Proof.
  pose proof quarter_lattice_inverse as Hinv.
  rewrite forallb_forall in Hinv.
  rewrite !init_is_spec_raw_byte_path in Hsame.
  unfold spec_raw_byte_path in Hsame.
  destruct (Z.eqb_spec a 255) as [-> | Hna], (Z.eqb_spec b 255) as [-> | Hnb];
    try reflexivity; try discriminate Hsame.
  inversion Hsame as [Hf].
  rewrite (Z.max_l a 0), (Z.min_l a 254) in Hf by lia.
  rewrite (Z.max_l b 0), (Z.min_l b 254) in Hf by lia.
  pose proof (Hinv a (in_raw_range a ltac:(lia))) as Hia.
  pose proof (Hinv b (in_raw_range b ltac:(lia))) as Hib.
  cbv beta in Hia, Hib. rewrite Hf in Hia.
  destruct (py_int (PrimFloat.mul (int_truediv b 4%float) 4%float)) as [k |];
    [|discriminate Hia].
  apply Z.eqb_eq in Hia, Hib. lia.
Qed.

Lemma raw_decoding_is_injective_witness :
  0 <= 17 <= 255 /\ 17 = 17.
Proof.
  split; [lia|].
  apply (raw_decoding_is_injective 17 17); try lia. reflexivity.
Defined.

(** ** Building a value from a stored value *)

(** X4. The constructor changes nothing on what it has stored: building a
    value from the number stored in an object gives the same object. *)
Theorem constructor_is_idempotent (value : pyval) (obj : RxMerDataValue.t)
  (Hobj : RxMerDataValue.__init__ value = Ok obj) :
  RxMerDataValue.__init__ (pyval_of_num (RxMerDataValue.getRxMER obj)) = Ok obj.
Proof.
  assert (Hraw : forall z, z <> RxMerDataValue.NO_MEASUREMENT ->
            RxMerDataValue.__init__
              (PyFloat (int_truediv (min_int (max_int z 0) 254) 4%float))
            = Ok (RxMerDataValue.mk
                    (NFloat (int_truediv (min_int (max_int z 0) 254) 4%float)))).
  { intros z _. pose proof (raw_path_in_range z) as Hr.
    cbn [in_dB_range] in Hr. apply andb_prop in Hr. destruct Hr as [Hl Hh].
    unfold RxMerDataValue.__init__. rewrite validate_float.
    rewrite (clamp_identity_in_range _ Hl Hh). reflexivity. }
  unfold RxMerDataValue.getRxMER.
  destruct value as [z | b | f | s | ].
  - unfold RxMerDataValue.__init__ in Hobj.
    destruct (Z.eq_dec z RxMerDataValue.NO_MEASUREMENT) as [-> | Hz].
    + inversion Hobj. reflexivity.
    + rewrite validate_raw in Hobj by exact Hz. inversion Hobj.
      cbn [RxMerDataValue.value pyval_of_num]. apply Hraw. exact Hz.
  - destruct b; vm_compute in Hobj; inversion Hobj; reflexivity.
  - unfold RxMerDataValue.__init__ in Hobj |- *.
    rewrite validate_float in Hobj. inversion Hobj.
    cbn [RxMerDataValue.value pyval_of_num]. rewrite validate_float.
    cbn [bind]. do 2 f_equal.
    destruct (float_clamp_cases f)
      as [[Hlo ->] | [(Hlo & Hhi & ->) | (Hlo & Hhi & ->)]].
    + reflexivity.
    + reflexivity.
    + unfold max_float, min_float. rewrite Hlo, Hhi. reflexivity.
  - discriminate Hobj.
  - discriminate Hobj.
Qed.

Lemma constructor_is_idempotent_witness :
  RxMerDataValue.__init__ (PyInt 300) = Ok (RxMerDataValue.mk (NFloat 63.5%float))
  /\ RxMerDataValue.__init__
       (pyval_of_num (RxMerDataValue.getRxMER (RxMerDataValue.mk (NFloat 63.5%float))))
     = Ok (RxMerDataValue.mk (NFloat 63.5%float)).
Proof.
  split; [reflexivity|].
  apply (constructor_is_idempotent (PyInt 300)). reflexivity.
Defined.

Lemma stored_value_in_range_or_sentinel_witness :
  RxMerDataValue.__init__ (PyFloat 70%float)
  = Ok (RxMerDataValue.mk (NFloat 63.5%float))
  /\ (in_dB_range (NFloat 63.5%float) = true
      \/ NFloat 63.5%float = NInt RxMerDataValue.NO_MEASUREMENT).
Proof.
  split; [reflexivity|].
  apply (stored_value_in_range_or_sentinel (PyFloat 70%float)
           (RxMerDataValue.mk (NFloat 63.5%float))).
  - intros f E. inversion E. reflexivity.
  - reflexivity.
Defined.

(** ** Order *)

(** The quotients [k / 4.0] grow with [k]. *)
Lemma quarter_lattice_monotone :
  forallb
    (fun a =>
       forallb
         (fun b =>
            implb (a <=? b)
                  (PrimFloat.leb (int_truediv a 4%float) (int_truediv b 4%float)))
         (map Z.of_nat (seq 0 255)))
    (map Z.of_nat (seq 0 255)) = true.
Proof. vm_compute. reflexivity. Qed.

(** X8. Away from 255 decoding keeps the order: for integers [a <= b],
    neither of them 255, the value stored for [a] is at most the one stored
    for [b]. *)
Theorem raw_decoding_is_monotone (a b : Z)
  (Ha : a <> 255) (Hb : b <> 255) (Hle : a <= b) :
  exists fa fb,
    RxMerDataValue.__init__ (PyInt a) = Ok (RxMerDataValue.mk (NFloat fa))
    /\ RxMerDataValue.__init__ (PyInt b) = Ok (RxMerDataValue.mk (NFloat fb))
    /\ PrimFloat.leb fa fb = true.
Proof.
  exists (int_truediv (min_int (max_int a 0) 254) 4%float),
         (int_truediv (min_int (max_int b 0) 254) 4%float).
  unfold RxMerDataValue.__init__. rewrite !validate_raw by assumption.
  split; [reflexivity|]. split; [reflexivity|].
  pose proof quarter_lattice_monotone as Hall.
  rewrite forallb_forall in Hall.
  specialize (Hall _ (in_raw_range _ (clamp_bounds a))).
  rewrite forallb_forall in Hall.
  specialize (Hall _ (in_raw_range _ (clamp_bounds b))).
  assert (Hk : min_int (max_int a 0) 254 <= min_int (max_int b 0) 254).
  { unfold min_int, max_int.
    destruct (Z.ltb_spec a 0); destruct (Z.ltb_spec b 0);
      destruct (Z.ltb_spec 254 0); try destruct (Z.ltb_spec 254 a);
      try destruct (Z.ltb_spec 254 b); lia. }
  apply Z.leb_le in Hk. rewrite Hk in Hall. exact Hall.
Qed.

Lemma raw_decoding_is_monotone_witness :
  -3 <> 255 /\ 256 <> 255 /\ -3 <= 256
  /\ exists fa fb,
       RxMerDataValue.__init__ (PyInt (-3)) = Ok (RxMerDataValue.mk (NFloat fa))
       /\ RxMerDataValue.__init__ (PyInt 256) = Ok (RxMerDataValue.mk (NFloat fb))
       /\ PrimFloat.leb fa fb = true.
Proof.
  split; [discriminate|]. split; [discriminate|]. split; [lia|].
  apply (raw_decoding_is_monotone (-3) 256); [discriminate | discriminate | lia].
Defined.

(** ** More on the processor *)

(** One byte: the flag tells whether it is 0xFF, and the stored value is in
    [0.0, 63.5] or is the sentinel accordingly. *)
Lemma byte_flag_and_range (b : byte) :
  let v := RxMerDataValue.mk (spec_raw_byte_path (Z.of_N (Byte.to_N b))) in
  RxMerDataValue.isMeasurement v = negb (Byte.eqb b xff)
  /\ (if RxMerDataValue.isMeasurement v
      then in_dB_range (RxMerDataValue.value v) = true
      else RxMerDataValue.value v = NInt RxMerDataValue.NO_MEASUREMENT).
Proof. destruct b; vm_compute; split; reflexivity. Qed.

(** X9. After [process_data()] on a present payload, the [isMeasurement()]
    flags of the sequence are false exactly at the 0xFF bytes, every element
    flagged as a measurement stores a value in [0.0, 63.5] and every other
    element stores the sentinel: nan or an out-of-range value is never
    stored by the processor. *)
Theorem processed_payload_flags_and_ranges
        (payload : list byte) (prev : option RxMerData.t) :
  exists rd,
    RX_MER.process_data (RX_MER.mk (RX_MER.mkHeader (Some payload)) prev)
    = Ok (RX_MER.mk (RX_MER.mkHeader (Some payload)) (Some rd))
    /\ map RxMerDataValue.isMeasurement (RxMerData.values rd)
       = map (fun b => negb (Byte.eqb b xff)) payload
    /\ Forall (fun v => if RxMerDataValue.isMeasurement v
                        then in_dB_range (RxMerDataValue.value v) = true
                        else RxMerDataValue.value v
                             = NInt RxMerDataValue.NO_MEASUREMENT)
              (RxMerData.values rd).
Proof.
  eexists. split; [|split].
  - unfold RX_MER.process_data.
    rewrite (parse_present (RX_MER.mkHeader (Some payload)) prev payload eq_refl).
    reflexivity.
  - cbn [RxMerData.values]. unfold RX_MER.list_of_bytes. rewrite !map_map.
    apply map_ext. intros b. apply (byte_flag_and_range b).
  - cbn [RxMerData.values]. unfold RX_MER.list_of_bytes. rewrite map_map.
    apply Forall_forall. intros v Hv. apply in_map_iff in Hv.
    destruct Hv as (b & <- & _). apply (byte_flag_and_range b).
Qed.

(** X10. [process_data()] looks at the header only: its result does not
    depend on the sequence held before, and calling it again on its own
    result changes nothing as long as the header's payload is the same. *)
Theorem process_data_again (s s' : RX_MER.t)
  (Hrun : RX_MER.process_data s = Ok s') :
  RX_MER.process_data s' = Ok s'
  /\ RX_MER.run s' = Ok s'
  /\ RX_MER.pnm_header s' = RX_MER.pnm_header s
  /\ forall prev : option RxMerData.t,
       RX_MER.process_data (RX_MER.mk (RX_MER.pnm_header s) prev) = Ok s'.
Proof.
  destruct s as [header prev0].
  assert (Hany : forall prev,
            RX_MER.process_data (RX_MER.mk header prev)
            = RX_MER.process_data (RX_MER.mk header prev0)) by reflexivity.
  destruct (process_data_total (RX_MER.mk header prev0)) as [rd Hrd].
  rewrite Hrd in Hrun. inversion Hrun. subst s'.
  cbn [RX_MER.pnm_header] in *. unfold RX_MER.run.
  split; [|split; [|split]].
  - rewrite Hany. exact Hrd.
  - rewrite Hany. exact Hrd.
  - reflexivity.
  - intros prev. rewrite Hany. exact Hrd.
Qed.

Lemma process_data_again_witness :
  RX_MER.process_data (RX_MER.__init__ (RX_MER.mkHeader (Some [x08; xff])))
  = Ok (RX_MER.mk (RX_MER.mkHeader (Some [x08; xff]))
          (Some (RxMerData.mk [RxMerDataValue.mk (NFloat 2%float);
                               RxMerDataValue.mk (NInt 255)])))
  /\ RX_MER.process_data
       (RX_MER.mk (RX_MER.mkHeader (Some [x08; xff]))
          (Some (RxMerData.mk [RxMerDataValue.mk (NFloat 2%float);
                               RxMerDataValue.mk (NInt 255)])))
     = Ok (RX_MER.mk (RX_MER.mkHeader (Some [x08; xff]))
             (Some (RxMerData.mk [RxMerDataValue.mk (NFloat 2%float);
                                  RxMerDataValue.mk (NInt 255)]))).
Proof.
  assert (Hrun :
    RX_MER.process_data (RX_MER.__init__ (RX_MER.mkHeader (Some [x08; xff])))
    = Ok (RX_MER.mk (RX_MER.mkHeader (Some [x08; xff]))
            (Some (RxMerData.mk [RxMerDataValue.mk (NFloat 2%float);
                                 RxMerDataValue.mk (NInt 255)]))))
    by (vm_compute; reflexivity).
  split; [exact Hrun|].
  exact (proj1 (process_data_again _ _ Hrun)).
Defined.

Section EndToEnd.
Context `{FloatRepr}.

(** X11. With no payload in the header, [run()] followed by [toJson()]
    returns the text [{"values": []}], whatever the processor held before. *)
Theorem absent_payload_json (self : RX_MER.t)
  (Habsent : RX_MER.getPnmData (RX_MER.pnm_header self) = None) :
  exists self',
    RX_MER.run self = Ok self'
    /\ RX_MER.toJson self' = Ok ("{" ++ quoted "values" ++ ": []}").
Proof.
  destruct self as [header prev]. cbn [RX_MER.pnm_header] in Habsent.
  exists (RX_MER.mk header (Some (RxMerData.mk []))).
  unfold RX_MER.run, RX_MER.process_data.
  rewrite (parse_absent header prev Habsent). split; reflexivity.
Qed.

End EndToEnd.

Lemma absent_payload_json_witness :
  RX_MER.getPnmData (RX_MER.pnm_header (RX_MER.__init__ (RX_MER.mkHeader None))) = None
  /\ exists self',
       RX_MER.run (RX_MER.__init__ (RX_MER.mkHeader None)) = Ok self'
       /\ @RX_MER.toJson exact_decimal self' = Ok ("{" ++ quoted "values" ++ ": []}").
Proof.
  split; [reflexivity|].
  apply (@absent_payload_json exact_decimal
           (RX_MER.__init__ (RX_MER.mkHeader None))).
  reflexivity.
Defined.
